(** * ZOAuth2Client: a shallow embedding of [zoauth_client.py]

    The client is a record of the instance attributes; every method is a
    function from the state of the program (the client and the dict that
    [authorize_header] keeps as its default argument) to a small interaction
    tree whose nodes are the two things the code asks of its environment:
    the wall clock ([datetime.now()]) and an HTTP exchange ([requests.get],
    [requests.post]).  Exceptions are results, and the state travels with
    them, so that a raise in the middle of a method leaves the attributes
    written so far.

    What the embedding does not cover: JSON numbers with a fractional part
    (Python floats), and failures of the transport itself (an exchange
    always yields a response; its body may fail to parse). *)

From stdpp Require Import gmap strings pretty.
From Stdlib Require Import ZArith.

Local Open Scope Z_scope.
Local Open Scope string_scope.

(** ** Python values *)

(** The values that reach the client: what [json()] can return, and what a
    caller can put in the [tokens] dict. *)
#[warnings="-register-all"]
Inductive pyval : Type :=
  | PyNone
  | PyBool (b : bool)
  | PyInt (z : Z)
  | PyStr (s : string)
  | PyList (l : list pyval)
  | PyDict (m : gmap string pyval).

Abbreviation dict := (gmap string pyval).

Inductive exn : Type :=
  | ValueError (msg : string)
  | KeyError (key : string)
  | TypeError
  | OverflowError
  | JSONDecodeError.

Inductive result (A : Type) : Type :=
  | Ok (a : A)
  | Raise (e : exn).
Arguments Ok {A} a.
Arguments Raise {A} e.

(** [bool(v)], as [not v] needs it. *)
Definition truthy (v : pyval) : bool :=
  match v with
  | PyNone => false
  | PyBool b => b
  | PyInt z => negb (Z.eqb z 0)
  | PyStr s => match s with EmptyString => false | String _ _ => true end
  | PyList l => match l with [] => false | _ :: _ => true end
  | PyDict m => negb (Nat.eqb (size m) 0)
  end.

(** [v == s] for a string literal [s]. *)
Definition py_eq_str (v : pyval) (s : string) : bool :=
  match v with
  | PyStr t => bool_decide (t = s)
  | _ => false
  end.

Fixpoint is_substring (s t : string) : bool :=
  String.prefix s t ||
  match t with
  | EmptyString => false
  | String _ t' => is_substring s t'
  end.

(** [k in v] for a string [k]: key of a dict, element of a list, substring
    of a string; the other values are not containers. *)
Definition py_contains (v : pyval) (k : string) : result bool :=
  match v with
  | PyDict m => Ok (bool_decide (is_Some (m !! k)))
  | PyList l => Ok (existsb (λ x, py_eq_str x k) l)
  | PyStr t => Ok (is_substring k t)
  | _ => Raise TypeError
  end.

(** [v[k]] for a string [k]. *)
Definition py_getitem (v : pyval) (k : string) : result pyval :=
  match v with
  | PyDict m =>
      match m !! k with
      | Some x => Ok x
      | None => Raise (KeyError k)
      end
  | _ => Raise TypeError
  end.

(** ** Time *)

(** A naive [datetime] is its number of microseconds since
    0001-01-01T00:00:00; [datetime.max] is the last microsecond of year
    9999.  A [timedelta] is a number of microseconds; its days component is
    limited to nine digits. *)
Definition datetime_max : Z := (3652059 * 86400 * 1000000 - 1)%Z.
Definition timedelta_max_days : Z := 999999999.

(** [timedelta(seconds=v)], for the values of [pyval]; a float, which
    [timedelta] accepts as well, is not one of them. *)
Definition timedelta_seconds (v : pyval) : result Z :=
  let of_int (n : Z) :=
    if ((- timedelta_max_days <=? n `div` 86400)%Z && (n `div` 86400 <=? timedelta_max_days)%Z)
    then Ok (n * 1000000)%Z
    else Raise OverflowError in
  match v with
  | PyInt n => of_int n
  | PyBool b => of_int (if b then 1 else 0)
  | _ => Raise TypeError
  end.

(** [t + delta] on a datetime *)
Definition datetime_add (t delta : Z) : result Z :=
  if ((0 <=? t + delta)%Z && (t + delta <=? datetime_max)%Z)
  then Ok (t + delta)%Z
  else Raise OverflowError.

(** ** HTTP *)

Inductive http_method : Type := GET | POST.

(** The keyword arguments of [requests.get] / [requests.post]; [None] is an
    argument that the call does not pass. *)
Record request : Type := Request {
  meth : http_method;
  url : string;
  params : option dict;
  headers : option dict;
  data : option dict;
  files : option dict
}.

(** [json] is [None] when the body is not a JSON document, in which case
    [response.json()] raises. *)
Record response : Type := Response {
  status_code : Z;
  json : option pyval
}.

Definition response_json (r : response) : result pyval :=
  match json r with
  | Some j => Ok j
  | None => Raise JSONDecodeError
  end.

(** ** The client and the program state *)

Record client : Type := Client {
  dc : string;
  client_id : pyval;
  client_secret : pyval;
  refresh_token : pyval;
  redirect_uri : string;
  access_token : pyval;
  expires_in : pyval;
  expires_time : option Z;
  domain : string
}.

Definition set_access_token (v : pyval) (c : client) : client :=
  Client (dc c) (client_id c) (client_secret c) (refresh_token c) (redirect_uri c)
         v (expires_in c) (expires_time c) (domain c).
Definition set_expires_in (v : pyval) (c : client) : client :=
  Client (dc c) (client_id c) (client_secret c) (refresh_token c) (redirect_uri c)
         (access_token c) v (expires_time c) (domain c).
Definition set_expires_time (t : option Z) (c : client) : client :=
  Client (dc c) (client_id c) (client_secret c) (refresh_token c) (redirect_uri c)
         (access_token c) (expires_in c) t (domain c).

(** [default_h] is the dict created once for [h: dict={}] in
    [authorize_header]: every call that omits [h] gets this same object. *)
Record world : Type := World {
  self : client;
  default_h : dict
}.

(** ** Interaction with the environment *)

(** A computation that ends with an [R], after reading the clock and
    exchanging requests for responses any number of times. *)
Inductive prog (R : Type) : Type :=
  | Done (r : R)
  | Now (k : Z → prog R)
  | Send (req : request) (k : response → prog R).
Arguments Done {R} r.
Arguments Now {R} k.
Arguments Send {R} req k.

(** A method: from the state at the call to a computation that returns or
    raises, together with the state it leaves. *)
Definition M (A : Type) : Type := world → prog (result A * world).

Fixpoint prog_bind {R S : Type} (p : prog R) (f : R → prog S) : prog S :=
  match p with
  | Done r => f r
  | Now k => Now (λ t, prog_bind (k t) f)
  | Send req k => Send req (λ resp, prog_bind (k resp) f)
  end.

Definition ret {A : Type} (a : A) : M A := λ w, Done (Ok a, w).
Definition raise {A : Type} (e : exn) : M A := λ w, Done (Raise e, w).
Definition bind {A B : Type} (m : M A) (f : A → M B) : M B :=
  λ w, prog_bind (m w)
         (λ rw, match rw.1 with
                | Ok a => f a rw.2
                | Raise e => Done (Raise e, rw.2)
                end).
Definition lift {A : Type} (r : result A) : M A := λ w, Done (r, w).
Definition get_self : M client := λ w, Done (Ok (self w), w).
Definition modify_self (f : client → client) : M unit :=
  λ w, Done (Ok tt, World (f (self w)) (default_h w)).
Definition datetime_now : M Z := λ w, Now (λ t, Done (Ok t, w)).
Definition send (req : request) : M response := λ w, Send req (λ resp, Done (Ok resp, w)).

Notation "'let*' x ':=' m 'in' k" := (bind m (λ x, k))
  (at level 10, x name, m at level 100, k at level 200).
Notation "m1 '>>' m2" := (bind m1 (λ _, m2))
  (at level 100, m2 at level 200, right associativity).

(** The environment answers the [n]-th question the program asks. *)
Record env : Type := Env {
  clock : nat → Z;
  server : nat → request → response
}.

Inductive event : Type :=
  | Tick (t : Z)
  | Exchange (req : request) (resp : response).

Fixpoint run {R : Type} (e : env) (n : nat) (p : prog R) : list event * R :=
  match p with
  | Done r => ([], r)
  | Now k =>
      let out := run e (S n) (k (clock e n)) in
      (Tick (clock e n) :: out.1, out.2)
  | Send req k =>
      let out := run e (S n) (k (server e n req)) in
      (Exchange req (server e n req) :: out.1, out.2)
  end.

Definition exec_from {A : Type} (e : env) (n : nat) (m : M A) (w : world)
  : list event * (result A * world) :=
  run e n (m w).

Definition exec {A : Type} (e : env) (m : M A) (w : world)
  : list event * (result A * world) :=
  exec_from e 0 m w.

(** The requests of a trace, in order. *)
Definition requests (tr : list event) : list request :=
  omap (λ ev, match ev with Exchange req _ => Some req | Tick _ => None end) tr.

(** ** The class *)

(** The defaults of [__init__]. *)
Definition default_domain : string := "accounts.zoho".
Definition default_dc : string := "eu".

Definition __init__ (tokens : dict) (domain dc : string) : result client :=
  if negb (forallb (λ k, bool_decide (is_Some (tokens !! k)))
                   ["client_id"; "client_secret"; "refresh_token"])
  then Raise (ValueError "Client ID, secret and refresh token are all required.")
  else
    match tokens !! "client_id", tokens !! "client_secret", tokens !! "refresh_token" with
    | Some cid, Some csec, Some rtok =>
        Ok {| dc := dc;
              client_id := cid;
              client_secret := csec;
              refresh_token := rtok;
              redirect_uri := "https://localhost/";
              access_token := match tokens !! "access_token" with
                              | Some tok => tok
                              | None => PyNone
                              end;
              expires_in := PyNone;
              expires_time := None;
              domain := "https://" ++ domain ++ "." ++ dc |}
    | None, _, _ => Raise (KeyError "client_id")
    | _, None, _ => Raise (KeyError "client_secret")
    | _, _, None => Raise (KeyError "refresh_token")
    end.

(** A rendering of lists and dicts for closed runs, none of which formats
    one. *)
Definition no_repr (v : pyval) : string := "".

Section Methods.

(** [str()] of a list or a dict is Python's [repr], which no method of the
    class depends on beyond its being a string. *)
Variable py_repr : pyval → string.

(** [f"{v}"] *)
Definition py_str (v : pyval) : string :=
  match v with
  | PyNone => "None"
  | PyBool b => if b then "True" else "False"
  | PyInt z => pretty z
  | PyStr s => s
  | PyList _ | PyDict _ => py_repr v
  end.

Definition bearer (c : client) : pyval :=
  PyStr ("Bearer " ++ py_str (access_token c)).

(** [h = None] is the call without argument: the default dict is updated in
    place and returned. *)
Definition authorize_header (h : option dict) : M dict :=
  λ w,
    match h with
    | None =>
        let h' := <["Authorization" := bearer (self w)]> (default_h w) in
        Done (Ok h', World (self w) h')
    | Some h0 =>
        Done (Ok (<["Authorization" := bearer (self w)]> h0), w)
    end.

Definition refresh_request (c : client) : request :=
  {| meth := POST;
     url := "https://accounts.zoho." ++ dc c ++ "/oauth/v2/token";
     params := Some (<["refresh_token" := refresh_token c]>
                    (<["client_id" := client_id c]>
                    (<["client_secret" := client_secret c]>
                    (<["redirect_uri" := PyStr (redirect_uri c)]>
                    (<["grant_type" := PyStr "refresh_token"]> ∅)))));
     headers := None;
     data := None;
     files := None |}.

Definition request_new_token : M bool :=
  let* c := get_self in
  let* response := send (refresh_request c) in
  let* json_response := lift (response_json response) in
  let* found := lift (py_contains json_response "access_token") in
  if negb found then ret false else
  let* tok := lift (py_getitem json_response "access_token") in
  modify_self (set_access_token tok) >>
  let* secs := lift (py_getitem json_response "expires_in") in
  modify_self (set_expires_in secs) >>
  let* now := datetime_now in
  let* delta := lift (timedelta_seconds secs) in
  let* t := lift (datetime_add now delta) in
  modify_self (set_expires_time (Some t)) >>
  ret true.

Definition probe_url (c : client) : string :=
  domain c ++ "." ++ dc c ++ "/api/v1/users/me".

Definition test_token : M unit :=
  let* h := authorize_header None in
  let* c := get_self in
  let* response :=
    send {| meth := GET; url := probe_url c; params := None;
            headers := Some h; data := None; files := None |} in
  let* j := lift (response_json response) in
  let* id := lift (py_getitem j "id") in
  if py_eq_str id "F7003"
  then request_new_token >> ret tt
  else ret tt.

Definition has_expired : M bool :=
  let* c := get_self in
  match expires_time c with
  | None => ret true
  | Some t => let* now := datetime_now in ret (bool_decide (now > t)%Z)
  end.

Definition query (ep : string) (p h d file : dict) : M pyval :=
  let* expired := has_expired in
  let* c := get_self in
  (if expired || negb (truthy (access_token c))
   then
     let* ok := request_new_token in
     if negb ok
     then raise (ValueError "Could not obtain Client access token from Zoho.")
     else ret tt
   else ret tt) >>
  let* h := authorize_header None in
  let* c := get_self in
  let* response :=
    if Nat.eqb (size d) 0 && Nat.eqb (size file) 0
    then send {| meth := GET; url := domain c ++ ep; params := Some p;
                 headers := Some h; data := None; files := None |}
    else if Nat.eqb (size file) 0
    then send {| meth := POST; url := domain c ++ ep; params := Some p;
                 headers := Some h; data := Some d; files := None |}
    else send {| meth := POST; url := domain c ++ ep; params := Some p;
                 headers := Some h; data := Some d; files := Some file |} in
  lift (response_json response).

(** ** The states a program can reach *)

(** The world after a call, whether it returned or raised. *)
Definition after {A : Type} (e : env) (n : nat) (m : M A) (w : world) : world :=
  (exec_from e n m w).2.2.

(** The worlds a program gets to from a freshly built client [c0] by calling
    the methods of the class, in any environment.  The default dict of
    [authorize_header] belongs to the function, not to the instance: a
    second client of the same program writes its own bearer into it
    ([reach_sibling]). *)
Inductive reachable (c0 : client) : world → Prop :=
  | reach_new :
      reachable c0 (World c0 ∅)
  | reach_sibling w v :
      reachable c0 w →
      reachable c0 (World (self w) (<["Authorization" := v]> (default_h w)))
  | reach_test_token e n w :
      reachable c0 w → reachable c0 (after e n test_token w)
  | reach_request_new_token e n w :
      reachable c0 w → reachable c0 (after e n request_new_token w)
  | reach_authorize_header e n h w :
      reachable c0 w → reachable c0 (after e n (authorize_header h) w)
  | reach_has_expired e n w :
      reachable c0 w → reachable c0 (after e n has_expired w)
  | reach_query e n ep p h d file w :
      reachable c0 w → reachable c0 (after e n (query ep p h d file) w).

(** The attributes that only [__init__] writes. *)
Definition same_config (c c' : client) : Prop :=
  dc c' = dc c ∧ client_id c' = client_id c ∧ client_secret c' = client_secret c ∧
  refresh_token c' = refresh_token c ∧ redirect_uri c' = redirect_uri c ∧
  domain c' = domain c.

(** The default dict holds no key but "Authorization". *)
Definition default_h_clean (w : world) : Prop :=
  ∀ k, k ≠ "Authorization" → default_h w !! k = None.

Definition stable (w w' : world) : Prop :=
  same_config (self w) (self w') ∧ (default_h_clean w → default_h_clean w').

(** ** The vocabulary of the statements *)

(** The response [request_new_token] gets when it is the [n]-th question. *)
Definition refresh_response (e : env) (n : nat) (w : world) : response :=
  server e n (refresh_request (self w)).

(** A whole number of seconds [s] from [now] is a representable expiry. *)
Definition representable_expiry (now s : Z) : Prop :=
  (- timedelta_max_days ≤ s `div` 86400 ≤ timedelta_max_days)%Z ∧
  (0 ≤ now + s * 1000000 ≤ datetime_max)%Z.

(** The probe's JSON is an object whose "id" is the WorkDrive error id. *)
Definition sentinel_id (resp : response) : Prop :=
  ∃ m, json resp = Some (PyDict m) ∧ m !! "id" = Some (PyStr "F7003").

(** No usable token at time [now]: the expiry is unknown or past, or there
    is no access token ([not self.access_token]). *)
Definition token_expired_or_missing (now : Z) (c : client) : Prop :=
  expires_time c = None ∨
  (∃ t, expires_time c = Some t ∧ (now > t)%Z) ∨
  truthy (access_token c) = false.

(** The request that the three branches of [query] build from a client, the
    headers and the arguments. *)
Definition chosen_request (c : client) (hd : dict) (ep : string) (p d file : dict)
  : request :=
  {| meth := if Nat.eqb (size d) 0 && Nat.eqb (size file) 0 then GET else POST;
     url := domain c ++ ep;
     params := Some p;
     headers := Some hd;
     data := if Nat.eqb (size d) 0 && Nat.eqb (size file) 0 then None else Some d;
     files := if Nat.eqb (size file) 0 then None else Some file |}.

(** The number of clock readings that [has_expired] makes. *)
Definition expiry_checks (c : client) : nat :=
  match expires_time c with
  | None => 0
  | Some _ => 1
  end.

(** ** Closed data *)

Definition tokens0 : dict :=
  <["client_id" := PyStr "1000.ABC"]>
  (<["client_secret" := PyStr "s3cret"]>
  (<["refresh_token" := PyStr "1000.refresh"]> ∅)).

Definition client0 : client :=
  {| dc := "eu";
     client_id := PyStr "1000.ABC";
     client_secret := PyStr "s3cret";
     refresh_token := PyStr "1000.refresh";
     redirect_uri := "https://localhost/";
     access_token := PyNone;
     expires_in := PyNone;
     expires_time := None;
     domain := "https://workdrive.zoho.eu" |}.

Definition world0 : world := World client0 ∅.

(** A server that grants a token for an hour, one that forgets
    "expires_in", and one that refuses. *)
Definition grant : pyval :=
  PyDict (<["access_token" := PyStr "tok"]> (<["expires_in" := PyInt 3600]> ∅)).
Definition token_only : dict := <["access_token" := PyStr "tok"]> ∅.
Definition refusal : pyval :=
  PyDict (<["error" := PyStr "invalid_code"]> ∅).

Definition noon : Z := 63900000000000000.

Definition env_grant : env := Env (λ _, noon) (λ _ _, Response 200 (Some grant)).
Definition env_token_only : env :=
  Env (λ _, noon) (λ _ _, Response 200 (Some (PyDict token_only))).
Definition env_refusal : env := Env (λ _, noon) (λ _ _, Response 400 (Some refusal)).

(** A WorkDrive that rejects the probe, then grants the refresh. *)
Definition rejected : pyval := PyDict (<["id" := PyStr "F7003"]> ∅).
Definition env_rejected : env :=
  Env (λ _, noon)
      (λ n _, match n with
              | O => Response 401 (Some rejected)
              | S _ => Response 200 (Some grant)
              end).

Definition some_headers : dict := <["X-Trace" := PyStr "1"]> ∅.

(** The run of a first query: no token yet, the refresh is granted. *)
Definition run0 : list event * (result pyval * world) :=
  exec env_grant (query "/api/v1/files" ∅ ∅ ∅ ∅) world0.

(** ** Further vocabulary *)

(** The request [test_token] sends from a given state. *)
Definition probe_request (w : world) : request :=
  {| meth := GET;
     url := probe_url (self w);
     params := None;
     headers := Some (<["Authorization" := bearer (self w)]> (default_h w));
     data := None;
     files := None |}.

(** The state after a call of [authorize_header()] without argument. *)
Definition with_bearer (w : world) : world :=
  World (self w) (<["Authorization" := bearer (self w)]> (default_h w)).

(** A computation that looks at nothing of a response but its JSON. *)
Inductive status_blind {R : Type} : prog R → Prop :=
  | blind_done r : status_blind (Done r)
  | blind_now k : (∀ t, status_blind (k t)) → status_blind (Now k)
  | blind_send req k :
      (∀ r1 r2, json r1 = json r2 → k r1 = k r2) →
      (∀ r, status_blind (k r)) →
      status_blind (Send req k).

(** Two environments that agree on the clock and on the JSON of every
    response. *)
Definition same_json (e1 e2 : env) : Prop :=
  (∀ n, clock e1 n = clock e2 n) ∧
  (∀ n req, json (server e1 n req) = json (server e2 n req)).

(** ** Further closed data *)

Definition tokens_with_access : dict := <["access_token" := PyStr "old"]> tokens0.
Definition client_old : client := set_access_token (PyStr "old") client0.

Definition grant_fields : dict :=
  <["access_token" := PyStr "tok"]> (<["expires_in" := PyInt 3600]> ∅).
Definition rejected_fields : dict := <["id" := PyStr "F7003"]> ∅.

(** The client an hour's grant at [noon] leaves. *)
Definition client_live : client :=
  set_expires_time (Some (noon + 3600 * 1000000)%Z)
    (set_expires_in (PyInt 3600) (set_access_token (PyStr "tok") client0)).
Definition world_live : world := World client_live ∅.

(** A default dict in which a caller has left a header. *)
Definition world_traced : world := World client_live some_headers.

(** A server that sends the lifetime as a string, one that rejects the
    probe and refuses the refresh, and one that grants with status 500. *)
Definition quoted_expiry : dict :=
  <["access_token" := PyStr "tok"]> (<["expires_in" := PyStr "3600"]> ∅).
Definition env_quoted_expiry : env :=
  Env (λ _, noon) (λ _ _, Response 200 (Some (PyDict quoted_expiry))).
Definition env_rejected_refused : env :=
  Env (λ _, noon)
      (λ n _, match n with
              | O => Response 401 (Some rejected)
              | S _ => Response 400 (Some refusal)
              end).
Definition env_grant_500 : env := Env (λ _, noon) (λ _ _, Response 500 (Some grant)).

(** * Properties *)

(** ** Facts about the data *)

Lemma py_contains_dict_false (m : dict) k :
  py_contains (PyDict m) k = Ok false → m !! k = None.
Proof.
  cbn. intros [= H]. apply bool_decide_eq_false in H.
  by apply eq_None_not_Some.
Qed.

Lemma py_contains_dict_true (m : dict) k :
  py_contains (PyDict m) k = Ok true → is_Some (m !! k).
Proof. cbn. intros [= H]. by apply bool_decide_eq_true in H. Qed.

Lemma py_getitem_ok j k v :
  py_getitem j k = Ok v → ∃ m, j = PyDict m ∧ m !! k = Some v.
Proof.
  destruct j as [ | | | | | m]; try discriminate. cbn.
  destruct (m !! k) eqn:Hk; intros [= <-]. eauto.
Qed.

Lemma py_getitem_raise j k x :
  py_getitem j k = Raise x → ∀ m, j = PyDict m → m !! k = None.
Proof.
  intros H m ->. cbn in H. by destruct (m !! k).
Qed.

Lemma py_eq_str_true v s : py_eq_str v s = true → v = PyStr s.
Proof.
  destruct v; try discriminate. cbn. intros H.
  apply bool_decide_eq_true in H. by subst.
Qed.

Lemma py_eq_str_false v s : py_eq_str v s = false → v ≠ PyStr s.
Proof.
  intros H ->. cbn in H. apply bool_decide_eq_false in H. by destruct H.
Qed.

Lemma expiry_of_seconds now s :
  representable_expiry now s →
  timedelta_seconds (PyInt s) = Ok (s * 1000000)%Z ∧
  datetime_add now (s * 1000000) = Ok (now + s * 1000000)%Z.
Proof.
  intros [[Hd1 Hd2] [Ht1 Ht2]]. unfold timedelta_seconds, datetime_add.
  apply Z.leb_le in Hd1, Hd2, Ht1, Ht2.
  by rewrite Hd1, Hd2, Ht1, Ht2.
Qed.

Lemma datetime_add_ok t delta t' :
  datetime_add t delta = Ok t' → t' = (t + delta)%Z.
Proof. unfold datetime_add. case_match; congruence. Qed.

Lemma string_app_assoc (a b c : string) : (a ++ b) ++ c = a ++ (b ++ c).
Proof.
  induction a as [ | x a IH]; [done | ].
  change (String x ((a ++ b) ++ c) = String x (a ++ (b ++ c))). by f_equal.
Qed.

(** What the refresh sends, whatever comes back. *)
Lemma refresh_request_shape c :
  meth (refresh_request c) = POST ∧
  url (refresh_request c) = "https://accounts.zoho." ++ dc c ++ "/oauth/v2/token" ∧
  headers (refresh_request c) = None ∧
  data (refresh_request c) = None ∧
  files (refresh_request c) = None ∧
  ∃ ps, params (refresh_request c) = Some ps ∧
        ps !! "grant_type" = Some (PyStr "refresh_token") ∧
        ps !! "refresh_token" = Some (refresh_token c) ∧
        ps !! "client_id" = Some (client_id c) ∧
        ps !! "client_secret" = Some (client_secret c) ∧
        ps !! "redirect_uri" = Some (PyStr (redirect_uri c)).
Proof.
  repeat split. eexists. split; [reflexivity | ].
  repeat split; by simplify_map_eq.
Qed.

Lemma refresh_request_headers c req :
  refresh_request c = req → headers req = None.
Proof. by intros <-. Qed.

Lemma init_config tokens dom d c :
  __init__ tokens dom d = Ok c →
  domain c = "https://" ++ dom ++ "." ++ d ∧ dc c = d.
Proof.
  unfold __init__. intros H.
  repeat case_match; simplify_eq; by cbn.
Qed.

(** ** Symbolic execution *)

Ltac step_prog :=
  cbn -[insert lookup size py_contains py_getitem timedelta_seconds datetime_add
        refresh_request probe_url bearer truthy py_eq_str elem_of].

Ltac unfold_methods :=
  unfold exec, exec_from, query, test_token, request_new_token, has_expired,
    authorize_header, bind, ret, raise, lift, get_self, modify_self,
    datetime_now, send, response_json.

(** Runs a method symbolically, splitting on every test it makes. *)
Ltac explore :=
  unfold_methods; step_prog;
  repeat (case_match; step_prog).

(** Turns the boolean facts of a branch into propositions. *)
Ltac bool_facts :=
  repeat match goal with
         | H : py_eq_str _ _ = false |- _ => apply py_eq_str_false in H
         | H : py_getitem _ _ = Raise _ |- _ =>
             let H' := fresh in
             pose proof (py_getitem_raise _ _ _ H) as H'; clear H
         | H : py_getitem _ _ = Ok _ |- _ => apply py_getitem_ok in H as (? & -> & ?)
         | H : py_eq_str _ _ = true |- _ => apply py_eq_str_true in H as ->
         | H : bool_decide _ = true |- _ => apply bool_decide_eq_true in H
         | H : bool_decide _ = false |- _ => apply bool_decide_eq_false in H
         | H : negb _ = true |- _ => apply negb_true_iff in H
         | H : negb _ = false |- _ => apply negb_false_iff in H
         | H : _ || _ = true |- _ => apply orb_true_iff in H as [H | H]
         | H : _ || _ = false |- _ => apply orb_false_iff in H as [? ?]
         | H : _ && _ = true |- _ => apply andb_true_iff in H as [? ?]
         | H : _ && _ = false |- _ => apply andb_false_iff in H
         | H : Nat.eqb _ _ = true |- _ => apply Nat.eqb_eq in H
         | H : Nat.eqb _ _ = false |- _ => apply Nat.eqb_neq in H
         end;
  simplify_eq.

Ltac step_data :=
  cbn -[insert lookup size py_contains timedelta_seconds datetime_add
        refresh_request probe_url bearer truthy elem_of bool_decide].

(** As [explore], looking into item access and comparison as well. *)
Ltac explore_data :=
  unfold_methods; step_data;
  repeat (case_match; step_data).

Ltac use_json :=
  match goal with
  | H : json _ = _ |- _ => by rewrite H
  end.

(** Proves [token_expired_or_missing], unfolded, from the facts of a branch. *)
Ltac prove_need :=
  first
    [ by left
    | by (right; left; eexists; split; [reflexivity | done])
    | by (right; right) ].

(** C4: [has_expired()] returns True when the stored expiry is unknown, and
    otherwise the result of the comparison "now is later than the stored
    expiry"; the client is left as it was. *)
Theorem has_expired_unknown_or_past (e : env) (w : world) :
  exec e has_expired w =
  match expires_time (self w) with
  | None => ([], (Ok true, w))
  | Some t => ([Tick (clock e 0)], (Ok (bool_decide (clock e 0 > t)%Z), w))
  end.
Proof.
  unfold_methods. step_prog.
  destruct (expires_time (self w)); reflexivity.
Qed.

Lemma same_config_refl c : same_config c c.
Proof. by repeat split. Qed.

Lemma default_h_clean_insert w v c :
  default_h_clean w →
  default_h_clean (World c (<["Authorization" := v]> (default_h w))).
Proof.
  intros Hw k Hk. cbn. rewrite lookup_insert_ne; [by apply Hw | done].
Qed.

Ltac solve_stable :=
  unfold after, stable; explore;
  (split; [by repeat split | try done]);
  try (intros Hw; by apply default_h_clean_insert).

Lemma stable_query e n ep p h d file w :
  stable w (after e n (query ep p h d file) w).
Proof. solve_stable. Qed.

Lemma stable_test_token e n w : stable w (after e n test_token w).
Proof. solve_stable. Qed.

Lemma stable_request_new_token e n w : stable w (after e n request_new_token w).
Proof. solve_stable. Qed.

Lemma stable_authorize_header e n h w : stable w (after e n (authorize_header h) w).
Proof. solve_stable. Qed.

Lemma stable_has_expired e n w : stable w (after e n has_expired w).
Proof. solve_stable. Qed.

Lemma same_config_trans c1 c2 c3 :
  same_config c1 c2 → same_config c2 c3 → same_config c1 c3.
Proof. unfold same_config. intuition congruence. Qed.

(** No method touches what [__init__] configured, and none puts a key other
    than "Authorization" into the shared default dict. *)
Lemma reachable_invariant c0 w :
  reachable c0 w → same_config c0 (self w) ∧ default_h_clean w.
Proof.
  induction 1 as [ | w v _ [IHc IHd] | e n w _ [IHc IHd] | e n w _ [IHc IHd]
                   | e n h w _ [IHc IHd] | e n w _ [IHc IHd]
                   | e n ep p h d file w _ [IHc IHd] ].
  - split; [apply same_config_refl | intros k _; apply lookup_empty].
  - split; [done | by apply default_h_clean_insert].
  - destruct (stable_test_token e n w) as [Hc Hd].
    split; [by eapply same_config_trans | auto].
  - destruct (stable_request_new_token e n w) as [Hc Hd].
    split; [by eapply same_config_trans | auto].
  - destruct (stable_authorize_header e n h w) as [Hc Hd].
    split; [by eapply same_config_trans | auto].
  - destruct (stable_has_expired e n w) as [Hc Hd].
    split; [by eapply same_config_trans | auto].
  - destruct (stable_query e n ep p h d file w) as [Hc Hd].
    split; [by eapply same_config_trans | auto].
Qed.

(** C10: the URL that [test_token] probes carries the datacentre twice,
    "https://<domain>.<dc>.<dc>/api/v1/users/me", and so is never the
    configured API domain followed by "/api/v1/users/me". *)
Theorem test_token_probe_url_doubles_dc tokens dom d c0 w e :
  __init__ tokens dom d = Ok c0 →
  reachable c0 w →
  ∃ probe resp rest,
    (exec e test_token w).1 = Exchange probe resp :: rest ∧
    url probe = "https://" ++ dom ++ "." ++ d ++ "." ++ d ++ "/api/v1/users/me" ∧
    url probe ≠ domain (self w) ++ "/api/v1/users/me".
Proof.
  intros Hinit Hreach.
  destruct (init_config _ _ _ _ Hinit) as [Hdom Hdc].
  destruct (reachable_invariant _ _ Hreach) as [(Hdc' & _ & _ & _ & _ & Hdom') _].
  unfold_methods. step_prog.
  eexists _, _, _. split; [reflexivity | ].
  cbn [url]. unfold probe_url. rewrite Hdom', Hdc', Hdom, Hdc. split.
  - by rewrite !string_app_assoc.
  - intros Heq. apply String.app_inj in Heq. discriminate Heq.
Qed.

(** ** The token refresh *)

(** C9: when the JSON of the refresh response lacks "access_token" (the
    test ["access_token" not in json_response] holds), [request_new_token]
    returns False and leaves the program state, hence [access_token],
    [expires_in] and [expires_time], exactly as it was. *)
Theorem request_new_token_atomic_on_failure e n w j :
  json (refresh_response e n w) = Some j →
  py_contains j "access_token" = Ok false →
  exec_from e n request_new_token w =
    ([Exchange (refresh_request (self w)) (refresh_response e n w)], (Ok false, w)).
Proof.
  intros Hjson Hlacks. unfold refresh_response in *.
  unfold_methods. step_prog.
  rewrite Hjson. step_prog. rewrite Hlacks. step_prog.
  by destruct w.
Qed.

(** Any other way of not finding a token (a body that is not JSON, or a JSON
    value on which the membership test raises) raises out of the method
    with the state untouched as well. *)
Lemma request_new_token_unchanged_without_token e n w :
  (∀ j, json (refresh_response e n w) = Some j → py_contains j "access_token" ≠ Ok true) →
  (exec_from e n request_new_token w).2.2 = w.
Proof.
  intros Hnone. unfold refresh_response in *.
  unfold_methods. step_prog.
  destruct (json _) as [j | ] eqn:Hjson; step_prog; [ | by destruct w].
  specialize (Hnone j eq_refl).
  destruct (py_contains j "access_token") as [[ | ] | x]; step_prog;
    [by destruct Hnone | by destruct w | by destruct w].
Qed.

Ltac close_case :=
  eexists _, _, _; (split; [reflexivity | ]); repeat split; try done;
  intros; simplify_eq; try congruence;
  try (match goal with
       | H : representable_expiry _ _ |- _ =>
           destruct (expiry_of_seconds _ _ H) as [? ?]; congruence
       end).

(** C5, amended: [request_new_token] posts to
    "https://accounts.zoho.<dc>/oauth/v2/token" with grant_type
    "refresh_token", the stored refresh token and the client credentials.
    It returns True, having stored the new access token and the expiry
    "now plus expires_in seconds", when the response JSON is an object with
    an "access_token" and a whole-number "expires_in" whose expiry is
    representable; it returns True only for an object that has both fields,
    with an "expires_in" that [timedelta] accepts and an expiry in range,
    and then has stored exactly these; it returns False when the JSON lacks
    "access_token"; for an object with "access_token" and no "expires_in" it
    raises KeyError with the new access token already stored. *)
Theorem request_new_token_spec e n w :
  ∃ rest res w',
    exec_from e n request_new_token w =
      (Exchange (refresh_request (self w)) (refresh_response e n w) :: rest, (res, w')) ∧
    meth (refresh_request (self w)) = POST ∧
    url (refresh_request (self w)) =
      "https://accounts.zoho." ++ dc (self w) ++ "/oauth/v2/token" ∧
    (∃ ps, params (refresh_request (self w)) = Some ps ∧
           ps !! "grant_type" = Some (PyStr "refresh_token") ∧
           ps !! "refresh_token" = Some (refresh_token (self w)) ∧
           ps !! "client_id" = Some (client_id (self w)) ∧
           ps !! "client_secret" = Some (client_secret (self w))) ∧
    (∀ m tok s,
        json (refresh_response e n w) = Some (PyDict m) →
        m !! "access_token" = Some tok →
        m !! "expires_in" = Some (PyInt s) →
        representable_expiry (clock e (S n)) s →
        res = Ok true ∧
        w' = World (set_expires_time (Some (clock e (S n) + s * 1000000)%Z)
                      (set_expires_in (PyInt s) (set_access_token tok (self w))))
                   (default_h w)) ∧
    (res = Ok true →
        ∃ m tok secs delta,
          json (refresh_response e n w) = Some (PyDict m) ∧
          m !! "access_token" = Some tok ∧
          m !! "expires_in" = Some secs ∧
          timedelta_seconds secs = Ok delta ∧
          datetime_add (clock e (S n)) delta = Ok (clock e (S n) + delta)%Z ∧
          w' = World (set_expires_time (Some (clock e (S n) + delta)%Z)
                        (set_expires_in secs (set_access_token tok (self w))))
                     (default_h w)) ∧
    (∀ j, json (refresh_response e n w) = Some j →
          py_contains j "access_token" = Ok false →
          res = Ok false) ∧
    (∀ m tok,
        json (refresh_response e n w) = Some (PyDict m) →
        m !! "access_token" = Some tok →
        m !! "expires_in" = None →
        res = Raise (KeyError "expires_in") ∧
        w' = World (set_access_token tok (self w)) (default_h w)).
Proof.
  destruct (refresh_request_shape (self w))
    as (Hm & Hu & _ & _ & _ & ps & Hps & Hg & Hr & Hi & Hs & _).
  assert (Hshape : ∃ ps, params (refresh_request (self w)) = Some ps ∧
           ps !! "grant_type" = Some (PyStr "refresh_token") ∧
           ps !! "refresh_token" = Some (refresh_token (self w)) ∧
           ps !! "client_id" = Some (client_id (self w)) ∧
           ps !! "client_secret" = Some (client_secret (self w))) by eauto 10.
  clear ps Hps Hg Hr Hi Hs.
  unfold refresh_response.
  unfold_methods. step_prog.
  destruct (json (server e n (refresh_request (self w)))) as [j | ] eqn:Hjson; step_prog.
  2: by close_case.
  destruct (py_contains j "access_token") as [[ | ] | x] eqn:Hin; step_prog.
  2, 3: close_case;
        match goal with
        | H : py_contains (PyDict _) _ = Ok false |- _ =>
            apply py_contains_dict_false in H; congruence
        end.
  destruct j as [ | | | t | l | m]; try discriminate Hin; unfold py_getitem; step_prog.
  1, 2: by close_case.
  destruct (m !! "access_token") as [tok | ] eqn:Htok; step_prog.
  2: { apply py_contains_dict_true in Hin. rewrite Htok in Hin. by destruct Hin. }
  destruct (m !! "expires_in") as [secs | ] eqn:Hsecs; step_prog.
  2: by close_case.
  destruct (timedelta_seconds secs) as [delta | x] eqn:Hdelta; step_prog.
  2: by close_case.
  destruct (datetime_add (clock e (S n)) delta) as [t | x] eqn:Ht; step_prog.
  2: by close_case.
  apply datetime_add_ok in Ht as Ht'. subst t.
  close_case. by eexists _, _, _, _.
Qed.

(** ** The probe *)

(** C7: [test_token] sends a GET to the WorkDrive user-info URL, and calls
    [request_new_token] if and only if the "id" of the JSON it gets back is
    "F7003"; for any other response the client is left unchanged (and no
    further request is made). *)
Theorem test_token_refreshes_on_sentinel e w :
  let w1 := World (self w) (<["Authorization" := bearer (self w)]> (default_h w)) in
  let probe := {| meth := GET;
                  url := domain (self w) ++ "." ++ dc (self w) ++ "/api/v1/users/me";
                  params := None; headers := Some (default_h w1);
                  data := None; files := None |} in
  let resp := server e 0 probe in
  ∃ rest res w',
    exec e test_token w = (Exchange probe resp :: rest, (res, w')) ∧
    (sentinel_id resp → ∃ r, exec_from e 1 request_new_token w1 = (rest, (r, w'))) ∧
    (¬ sentinel_id resp → rest = [] ∧ self w' = self w) ∧
    (refresh_request (self w) ∈ requests rest ↔ sentinel_id resp).
Proof.
  intros w1 probe resp. subst w1 probe resp. unfold sentinel_id.
  explore_data.
  all: eexists _, _, _; (split; [reflexivity | ]).
  all: unfold probe_url in *; bool_facts; unfold requests; cbn [omap list_omap self].
  all: rewrite ?elem_of_cons, ?elem_of_nil.
  all: match goal with
       | |- (?S → _) ∧ _ =>
           first
             [ assert (Hs : S) by (eexists; split; eassumption);
               split_and!;
               [ intros _; by eexists
               | intros Hn; by destruct Hn
               | split; [done | intros _; by left] ]
             | assert (Hn : ¬ S)
                 by (intros (m & Hj & Hid); simplify_eq;
                     first
                       [ congruence
                       | match goal with
                         | H : ∀ m, _ = PyDict m → _ |- _ =>
                             specialize (H _ eq_refl); congruence
                         end ]);
               split_and!;
               [ intros Hs; by destruct Hn
               | intros _; by split
               | split; [by intros [] | intros Hs; by destruct Hn] ] ]
       end.
Qed.

(** ** Queries *)

(** C3: [query] attempts a token refresh if and only if, when it is called,
    the stored token is expired or missing, and then before anything else;
    with a live token the only request made is the query itself. *)
Theorem query_refreshes_iff_expired_or_missing e w ep p h d file :
  let tr := (exec e (query ep p h d file) w).1 in
  (refresh_request (self w) ∈ requests tr ↔
     token_expired_or_missing (clock e 0) (self w)) ∧
  (token_expired_or_missing (clock e 0) (self w) →
     ∃ rest, requests tr = refresh_request (self w) :: rest) ∧
  (¬ token_expired_or_missing (clock e 0) (self w) →
     ∃ req, requests tr = [req] ∧ req ≠ refresh_request (self w) ∧
            url req = domain (self w) ++ ep).
Proof.
  unfold token_expired_or_missing.
  explore.
  all: unfold requests; cbn [omap list_omap fst snd self].
  all: bool_facts.
  all: rewrite ?elem_of_cons, ?elem_of_nil.
  all: match goal with
       | |- (_ ↔ ?P) ∧ _ =>
           first
             [ assert (Hn : P) by prove_need;
               split_and!;
               [ split; [done | intros _; by left]
               | intros _; by eexists
               | intros Hc; by destruct Hc ]
             | split_and!;
               [ split;
                 [ intros [Heq | []]; by apply refresh_request_headers in Heq
                 | intros [? | [(t & ? & ?) | ?]]; simplify_eq; (done || congruence) ]
               | intros [? | [(t & ? & ?) | ?]]; simplify_eq; (done || congruence)
               | intros _; eexists; split_and!;
                 [ reflexivity
                 | intros Heq; symmetry in Heq; by apply refresh_request_headers in Heq
                 | reflexivity ] ] ]
       end.
Qed.

(** Every request of a run of [query] other than the token refresh is the
    chosen request, built from the client and the default dict as the call
    leaves them; a call that returns has sent it. *)
Lemma query_dispatch e w ep p h d file tr res w' :
  exec e (query ep p h d file) w = (tr, (res, w')) →
  (∀ req, req ∈ requests tr → req ≠ refresh_request (self w) →
     req = chosen_request (self w') (default_h w') ep p d file ∧
     default_h w' = <["Authorization" := bearer (self w')]> (default_h w)) ∧
  (∀ v, res = Ok v →
     chosen_request (self w') (default_h w') ep p d file ∈ requests tr ∧
     chosen_request (self w') (default_h w') ep p d file ≠ refresh_request (self w)).
Proof.
  intros Hrun. revert Hrun. explore.
  all: intros [= <- <- <-].
  all: unfold requests, chosen_request; cbn [omap list_omap self default_h domain].
  all: repeat match goal with
              | H : _ && _ = true |- _ => apply andb_true_iff in H as [? ?]
              | H : _ && _ = false |- _ => rewrite H; clear H
              | H : Nat.eqb _ _ = _ |- _ => rewrite H; clear H
              end.
  all: cbn [andb].
  all: split;
    [ intros req Hin Hne;
      repeat (apply elem_of_cons in Hin as [-> | Hin]);
      try (by apply elem_of_nil in Hin); done
    | intros v Hv;
      first
        [ discriminate Hv
        | split;
          [ rewrite ?elem_of_cons; auto
          | intros Heq; by apply (f_equal headers) in Heq ] ] ].
Qed.

Lemma chosen_request_method c hd ep p d file :
  (d = ∅ → file = ∅ →
     meth (chosen_request c hd ep p d file) = GET ∧
     data (chosen_request c hd ep p d file) = None ∧
     files (chosen_request c hd ep p d file) = None) ∧
  (d ≠ ∅ → file = ∅ →
     meth (chosen_request c hd ep p d file) = POST ∧
     data (chosen_request c hd ep p d file) = Some d ∧
     files (chosen_request c hd ep p d file) = None) ∧
  (file ≠ ∅ →
     meth (chosen_request c hd ep p d file) = POST ∧
     data (chosen_request c hd ep p d file) = Some d ∧
     files (chosen_request c hd ep p d file) = Some file).
Proof.
  unfold chosen_request. cbn [meth data files]. split_and!.
  - intros -> ->. by rewrite map_size_empty.
  - intros Hd ->. apply map_size_non_empty_iff, Nat.eqb_neq in Hd.
    by rewrite Hd, map_size_empty.
  - intros Hf. apply map_size_non_empty_iff, Nat.eqb_neq in Hf.
    by rewrite Hf, andb_false_r.
Qed.

(** Once the token check is passed (no refresh was needed, or the refresh
    returned True), the last thing a run of [query] does with the network
    is to send its own request. *)
Lemma query_sends_when_checked e w ep p h d file tr res w' :
  exec e (query ep p h d file) w = (tr, (res, w')) →
  ¬ token_expired_or_missing (clock e 0) (self w) ∨
  (exec_from e (expiry_checks (self w)) request_new_token w).2.1 = Ok true →
  ∃ req resp,
    last tr = Some (Exchange req resp) ∧
    req ≠ refresh_request (self w) ∧
    req ∈ requests tr.
Proof.
  intros Hrun. revert Hrun.
  unfold token_expired_or_missing, expiry_checks.
  explore.
  all: intros [= <- <- <-].
  all: bool_facts.
  all: cbn [last self fst snd].
  all: intros [Hlive | Hok];
    first
      [ eexists _, _; split_and!;
        [ reflexivity
        | intros Heq; symmetry in Heq; by apply refresh_request_headers in Heq
        | unfold requests; cbn [omap list_omap]; rewrite ?elem_of_cons;
          first [by left | by (right; left)] ]
      | by (exfalso; apply Hlive; prove_need)
      | discriminate Hok ].
Qed.

(** C2: the request [query] sends is a GET when both the body [d] and the
    files dict are empty, a plain POST carrying [d] when [d] is non-empty and
    there are no files, and a multipart POST carrying [d] and the files when
    files are supplied; and [query] does send it, as the last thing it does
    with the network, whenever the token check is passed (no refresh was
    needed, or the refresh returned True), whatever [json()] does with the
    response afterwards. *)
Theorem query_method_by_arguments e w ep p h d file tr res w' :
  exec e (query ep p h d file) w = (tr, (res, w')) →
  (∀ req, req ∈ requests tr → req ≠ refresh_request (self w) →
     (d = ∅ → file = ∅ →
        meth req = GET ∧ data req = None ∧ files req = None) ∧
     (d ≠ ∅ → file = ∅ →
        meth req = POST ∧ data req = Some d ∧ files req = None) ∧
     (file ≠ ∅ →
        meth req = POST ∧ data req = Some d ∧ files req = Some file)) ∧
  (¬ token_expired_or_missing (clock e 0) (self w) ∨
   (exec_from e (expiry_checks (self w)) request_new_token w).2.1 = Ok true →
   ∃ req resp,
     last tr = Some (Exchange req resp) ∧
     req ≠ refresh_request (self w) ∧
     (d = ∅ → file = ∅ →
        meth req = GET ∧ data req = None ∧ files req = None) ∧
     (d ≠ ∅ → file = ∅ →
        meth req = POST ∧ data req = Some d ∧ files req = None) ∧
     (file ≠ ∅ →
        meth req = POST ∧ data req = Some d ∧ files req = Some file)).
Proof.
  intros Hrun. destruct (query_dispatch _ _ _ _ _ _ _ _ _ _ Hrun) as [Hall _].
  split.
  - intros req Hin Hne. destruct (Hall req Hin Hne) as [-> _].
    apply chosen_request_method.
  - intros Hchecked.
    destruct (query_sends_when_checked _ _ _ _ _ _ _ _ _ _ Hrun Hchecked)
      as (req & resp & Hlast & Hne & Hin).
    exists req, resp. split; [exact Hlast | ]. split; [exact Hne | ].
    destruct (Hall req Hin Hne) as [-> _]. apply chosen_request_method.
Qed.

(** C6: every request that [query] itself sends goes to the API domain
    configured at construction, "https://<domain>.<dc>" followed by the
    endpoint, and carries the header Authorization: "Bearer <access_token>"
    (the token as [query] leaves it). *)
Theorem query_request_target_and_bearer
    tokens dom dcn c0 w e ep p h d file tr res w' :
  __init__ tokens dom dcn = Ok c0 →
  reachable c0 w →
  exec e (query ep p h d file) w = (tr, (res, w')) →
  ∀ req, req ∈ requests tr → req ≠ refresh_request (self w) →
    url req = "https://" ++ dom ++ "." ++ dcn ++ ep ∧
    ∃ hd, headers req = Some hd ∧
          hd !! "Authorization" =
            Some (PyStr ("Bearer " ++ py_str (access_token (self w')))).
Proof.
  intros Hinit Hreach Hrun req Hin Hne.
  destruct (init_config _ _ _ _ Hinit) as [Hdom _].
  destruct (reachable_invariant _ _ Hreach) as [(_ & _ & _ & _ & _ & Hdom0) _].
  destruct (stable_query e 0 ep p h d file w) as [(_ & _ & _ & _ & _ & Hdom1) _].
  unfold after, exec_from in Hdom1. unfold exec, exec_from in Hrun.
  rewrite Hrun in Hdom1. cbn in Hdom1.
  destruct (query_dispatch _ _ _ _ _ _ _ _ _ _ Hrun) as [Hall _].
  destruct (Hall req Hin Hne) as [-> Hhd].
  unfold chosen_request. cbn [url headers]. split.
  - rewrite Hdom1, Hdom0, Hdom. by rewrite !string_app_assoc.
  - eexists. split; [reflexivity | ]. rewrite Hhd. apply lookup_insert_eq.
Qed.



(** C1, amended: when the token is expired or missing, [query] raises
    ValueError if [request_new_token] returns False, and lets through
    whatever [request_new_token] itself raises; when the refresh returns
    True, or none was needed, [query] ends with the result of [json()] on
    the response to its request (the parsed body, or the decoding error),
    without looking at the status code. *)
Theorem query_outcome e w ep p h d file tr res w' :
  exec e (query ep p h d file) w = (tr, (res, w')) →
  (¬ token_expired_or_missing (clock e 0) (self w) →
     ∃ req resp,
       last tr = Some (Exchange req resp) ∧ req ≠ refresh_request (self w) ∧
       res = match json resp with
             | Some j => Ok j
             | None => Raise JSONDecodeError
             end) ∧
  (token_expired_or_missing (clock e 0) (self w) →
     ∀ tr1 r1 w1,
       exec_from e (expiry_checks (self w)) request_new_token w = (tr1, (r1, w1)) →
       (r1 = Ok false →
          res = Raise (ValueError "Could not obtain Client access token from Zoho.")) ∧
       (∀ x, r1 = Raise x → res = Raise x) ∧
       (r1 = Ok true →
          ∃ req resp,
            last tr = Some (Exchange req resp) ∧ req ≠ refresh_request (self w) ∧
            res = match json resp with
                  | Some j => Ok j
                  | None => Raise JSONDecodeError
                  end)).
Proof.
  intros Hrun. revert Hrun.
  unfold token_expired_or_missing, expiry_checks.
  explore.
  all: intros [= <- <- <-].
  all: bool_facts.
  all: cbn [last self].
  all: split;
    [ intros Hlive;
      first
        [ by (exfalso; apply Hlive; prove_need)
        | eexists _, _; split_and!;
          [ reflexivity
          | intros Heq; symmetry in Heq; by apply refresh_request_headers in Heq
          | use_json ] ]
    | intros Hneed tr1 r1 w1 [= <- <- <-];
      first
        [ by (destruct Hneed as [? | [(t & ? & ?) | ?]]; simplify_eq; (done || congruence))
        | split_and!;
          [ intros Hr; first [discriminate Hr | reflexivity]
          | intros ? Hr; first [discriminate Hr | by injection Hr as ->]
          | intros Hr;
            first
              [ discriminate Hr
              | eexists _, _; split_and!;
                [ reflexivity
                | intros Heq; symmetry in Heq; by apply refresh_request_headers in Heq
                | use_json ] ] ] ] ].
Qed.

(** * Further properties *)

(** ** Runs under a known answer *)

Lemma requests_exchange req resp tr :
  requests (Exchange req resp :: tr) = req :: requests tr.
Proof. reflexivity. Qed.

Lemma requests_tick t tr : requests (Tick t :: tr) = requests tr.
Proof. reflexivity. Qed.

Lemma init_fresh tokens dom dcn c :
  __init__ tokens dom dcn = Ok c →
  expires_time c = None ∧
  access_token c = default PyNone (tokens !! "access_token").
Proof.
  unfold __init__. intros H.
  repeat case_match; simplify_eq; by cbn.
Qed.

(** The test that guards the refresh in [query]. *)
Lemma need_refresh_true now c t :
  token_expired_or_missing now c →
  expires_time c = Some t →
  bool_decide (now > t)%Z || negb (truthy (access_token c)) = true.
Proof.
  intros [Hnone | [(t' & Ht' & Hpast) | Hmissing]] Ht.
  - congruence.
  - simplify_eq. by rewrite bool_decide_eq_true_2.
  - rewrite Hmissing. apply orb_true_r.
Qed.

Lemma refresh_refused_run e n w j :
  json (refresh_response e n w) = Some j →
  py_contains j "access_token" = Ok false →
  exec_from e n request_new_token w =
    ([Exchange (refresh_request (self w)) (refresh_response e n w)], (Ok false, w)).
Proof.
  unfold refresh_response. intros Hjson Hlacks.
  unfold_methods. step_prog. rewrite Hjson. step_prog. rewrite Hlacks. step_prog.
  by destruct w.
Qed.

Lemma refresh_granted_run e n w m tok s :
  json (refresh_response e n w) = Some (PyDict m) →
  m !! "access_token" = Some tok →
  m !! "expires_in" = Some (PyInt s) →
  representable_expiry (clock e (S n)) s →
  exec_from e n request_new_token w =
    ([Exchange (refresh_request (self w)) (refresh_response e n w); Tick (clock e (S n))],
     (Ok true,
      World (set_expires_time (Some (clock e (S n) + s * 1000000)%Z)
               (set_expires_in (PyInt s) (set_access_token tok (self w))))
            (default_h w))).
Proof.
  unfold refresh_response. intros Hjson Htok Hsecs Hrep.
  destruct (expiry_of_seconds _ _ Hrep) as [Hdelta Hadd].
  unfold_methods. step_prog. rewrite Hjson. step_prog.
  unfold py_contains, py_getitem. rewrite Htok, Hsecs.
  rewrite bool_decide_eq_true_2 by eauto. step_prog.
  rewrite Hdelta. step_prog. rewrite Hadd. by step_prog.
Qed.

Lemma query_live_run e w ep p h d file t :
  expires_time (self w) = Some t →
  ¬ (clock e 0 > t)%Z →
  truthy (access_token (self w)) = true →
  ∃ req,
    exec e (query ep p h d file) w =
      ([Tick (clock e 0); Exchange req (server e 1 req)],
       (response_json (server e 1 req), with_bearer w)) ∧
    req ≠ refresh_request (self w) ∧
    url req = domain (self w) ++ ep ∧
    params req = Some p ∧
    headers req = Some (default_h (with_bearer w)).
Proof.
  intros Ht Hnot Htok.
  unfold_methods. step_prog. rewrite Ht. step_prog.
  rewrite bool_decide_eq_false_2 by done. rewrite Htok. step_prog.
  destruct (Nat.eqb (size d) 0 && Nat.eqb (size file) 0);
    [ | destruct (Nat.eqb (size file) 0)];
    step_prog; (eexists; split; [reflexivity | by repeat split]).
Qed.

(** ** Construction *)

(** X1: [__init__] builds a client exactly when the three required keys are
    in [tokens], taking the access token if there is one and leaving the
    expiry unknown; otherwise it raises ValueError, never KeyError. *)
Theorem init_requires_the_three_keys tokens dom dcn :
  match __init__ tokens dom dcn with
  | Ok c =>
      tokens !! "client_id" = Some (client_id c) ∧
      tokens !! "client_secret" = Some (client_secret c) ∧
      tokens !! "refresh_token" = Some (refresh_token c) ∧
      access_token c = default PyNone (tokens !! "access_token") ∧
      expires_in c = PyNone ∧ expires_time c = None ∧
      dc c = dcn ∧ domain c = "https://" ++ dom ++ "." ++ dcn ∧
      redirect_uri c = "https://localhost/"
  | Raise x =>
      x = ValueError "Client ID, secret and refresh token are all required." ∧
      (tokens !! "client_id" = None ∨ tokens !! "client_secret" = None ∨
       tokens !! "refresh_token" = None)
  end.
Proof.
  unfold __init__. cbn [forallb].
  destruct (tokens !! "client_id") as [cid | ] eqn:Hid;
    destruct (tokens !! "client_secret") as [csec | ] eqn:Hsec;
    destruct (tokens !! "refresh_token") as [rtok | ] eqn:Htok;
    cbn; split; (reflexivity || by eauto).
Qed.

(** X2: the first [query] of a freshly built client starts with a token
    refresh, also when [tokens] supplied an access token: the expiry of that
    token is unknown. *)
Theorem fresh_client_first_query_refreshes tokens dom dcn c e hd ep p h d file :
  __init__ tokens dom dcn = Ok c →
  ∃ rest,
    requests (exec e (query ep p h d file) (World c hd)).1 =
      refresh_request c :: rest.
Proof.
  intros Hinit. destruct (init_fresh _ _ _ _ Hinit) as [Hexp _].
  unfold_methods. step_prog. rewrite Hexp. step_prog.
  eexists. reflexivity.
Qed.

(** X3: [test_token] on a freshly built client probes with the token that
    [tokens] supplied, and with the text "Bearer None" when it supplied
    none. *)
Theorem fresh_client_probe_bearer tokens dom dcn c e hd :
  __init__ tokens dom dcn = Ok c →
  ∃ probe resp rest hs,
    (exec e test_token (World c hd)).1 = Exchange probe resp :: rest ∧
    headers probe = Some hs ∧
    hs !! "Authorization" =
      Some (PyStr match tokens !! "access_token" with
                  | Some tok => "Bearer " ++ py_str tok
                  | None => "Bearer None"
                  end).
Proof.
  intros Hinit. destruct (init_fresh _ _ _ _ Hinit) as [_ Htok].
  unfold_methods. step_prog.
  eexists _, _, _, _. split; [reflexivity | ]. split; [reflexivity | ].
  rewrite lookup_insert_eq. unfold bearer. rewrite Htok.
  by destruct (tokens !! "access_token").
Qed.

(** ** The probe *)

(** X4: when the JSON of the probe is an object without "id", [test_token]
    raises KeyError; it has sent the probe only, and the client is as it
    was. *)
Theorem test_token_without_id_raises e w m :
  json (server e 0 (probe_request w)) = Some (PyDict m) →
  m !! "id" = None →
  exec e test_token w =
    ([Exchange (probe_request w) (server e 0 (probe_request w))],
     (Raise (KeyError "id"), with_bearer w)).
Proof.
  unfold probe_request. intros Hjson Hid.
  unfold_methods. step_prog. rewrite Hjson. step_prog.
  unfold py_getitem. rewrite Hid. by step_prog.
Qed.

(** X5: [test_token] does not look at what [request_new_token] returns:
    when the probe is rejected and the refresh is refused, it returns
    normally, with the client unchanged. *)
Theorem test_token_ignores_refused_refresh e w j :
  sentinel_id (server e 0 (probe_request w)) →
  json (server e 1 (refresh_request (self w))) = Some j →
  py_contains j "access_token" = Ok false →
  exec e test_token w =
    ([Exchange (probe_request w) (server e 0 (probe_request w));
      Exchange (refresh_request (self w)) (server e 1 (refresh_request (self w)))],
     (Ok tt, with_bearer w)).
Proof.
  unfold probe_request. intros (m & Hjson & Hid) Hjson1 Hlacks.
  unfold_methods. step_prog. rewrite Hjson. step_prog.
  unfold py_getitem. rewrite Hid. step_prog.
  unfold py_eq_str. rewrite bool_decide_eq_true_2 by done. step_prog.
  rewrite Hjson1. step_prog. rewrite Hlacks. by step_prog.
Qed.

(** ** Queries *)

(** X6: when the token is expired or missing and the refresh response lacks
    "access_token", [query] raises ValueError having sent the refresh only,
    and leaves the whole program state as it was. *)
Theorem query_refused_refresh_keeps_state e w ep p h d file j :
  token_expired_or_missing (clock e 0) (self w) →
  json (refresh_response e (expiry_checks (self w)) w) = Some j →
  py_contains j "access_token" = Ok false →
  (exec e (query ep p h d file) w).2 =
    (Raise (ValueError "Could not obtain Client access token from Zoho."), w) ∧
  requests (exec e (query ep p h d file) w).1 = [refresh_request (self w)].
Proof.
  unfold expiry_checks, refresh_response. intros Hneed Hjson Hlacks.
  unfold_methods. step_prog.
  destruct (expires_time (self w)) as [t | ] eqn:Ht; step_prog.
  - rewrite (need_refresh_true _ _ _ Hneed Ht). step_prog.
    rewrite Hjson. step_prog. rewrite Hlacks. step_prog. by destruct w.
  - rewrite Hjson. step_prog. rewrite Hlacks. step_prog. by destruct w.
Qed.

(** X7: with a live token, [query] reads the clock once, sends one request,
    to the configured domain with the caller's parameters, ends with what
    [json()] gives on the response, and changes nothing of the client. *)
Theorem query_with_live_token e w ep p h d file t :
  expires_time (self w) = Some t →
  ¬ (clock e 0 > t)%Z →
  truthy (access_token (self w)) = true →
  ∃ req,
    exec e (query ep p h d file) w =
      ([Tick (clock e 0); Exchange req (server e 1 req)],
       (response_json (server e 1 req), with_bearer w)) ∧
    req ≠ refresh_request (self w) ∧
    url req = domain (self w) ++ ep ∧
    params req = Some p ∧
    headers req = Some (default_h (with_bearer w)).
Proof. apply query_live_run. Qed.

(** X8: [query] never retries: a run sends the query alone, the refresh
    alone, or the refresh followed by the query. *)
Theorem query_never_retries e w ep p h d file :
  (∃ req, requests (exec e (query ep p h d file) w).1 = [req] ∧
          req ≠ refresh_request (self w)) ∨
  requests (exec e (query ep p h d file) w).1 = [refresh_request (self w)] ∨
  (∃ req, requests (exec e (query ep p h d file) w).1 = [refresh_request (self w); req] ∧
          req ≠ refresh_request (self w)).
Proof.
  explore.
  all: unfold requests; cbn [omap list_omap fst self].
  all: first
         [ by (right; left)
         | left; eexists; split; [reflexivity | ];
           intros Heq; symmetry in Heq; by apply refresh_request_headers in Heq
         | right; right; eexists; split; [reflexivity | ];
           intros Heq; symmetry in Heq; by apply refresh_request_headers in Heq ].
Qed.

(** X9: whatever entry the shared default dict of [authorize_header] holds
    under another key than "Authorization" is sent with every request of
    [query], and stays in the dict. *)
Theorem shared_default_headers_are_sent e w ep p h d file k v tr res w' :
  default_h w !! k = Some v →
  k ≠ "Authorization" →
  exec e (query ep p h d file) w = (tr, (res, w')) →
  ∀ req, req ∈ requests tr → req ≠ refresh_request (self w) →
    ∃ hs, headers req = Some hs ∧ hs !! k = Some v ∧ default_h w' !! k = Some v.
Proof.
  intros Hk Hne Hrun req Hin Hreq.
  destruct (query_dispatch _ _ _ _ _ _ _ _ _ _ Hrun) as [Hall _].
  destruct (Hall req Hin Hreq) as [-> Hhd].
  eexists. split; [reflexivity | ].
  rewrite Hhd, lookup_insert_ne by done. by split.
Qed.

(** X16: through the methods of the class alone, the shared default dict
    never comes to hold anything but the "Authorization" entry. *)
Theorem methods_only_write_authorization c0 w k :
  reachable c0 w →
  k ≠ "Authorization" →
  default_h w !! k = None.
Proof.
  intros Hreach Hk.
  destruct (reachable_invariant _ _ Hreach) as [_ Hclean]. by apply Hclean.
Qed.

(** ** The life of a token *)

(** X10: no method changes what [__init__] configured: every refresh of a
    client sends the same request, with the refresh token it was built
    with, and its domain and datacentre stay. *)
Theorem credentials_are_never_rotated c0 w :
  reachable c0 w →
  refresh_request (self w) = refresh_request c0 ∧
  domain (self w) = domain c0 ∧ dc (self w) = dc c0.
Proof.
  intros Hreach.
  destruct (reachable_invariant _ _ Hreach)
    as [(Hdc & Hid & Hsec & Htok & Huri & Hdom) _].
  unfold refresh_request. by rewrite Hdc, Hid, Hsec, Htok, Huri.
Qed.

(** X11: a refresh response with an "access_token" and an "expires_in" that
    is a string, null, a list or an object makes [request_new_token] raise
    TypeError with the access token and [expires_in] overwritten and the
    expiry time as it was. *)
Theorem request_new_token_unusable_expiry e n w m tok secs :
  json (refresh_response e n w) = Some (PyDict m) →
  m !! "access_token" = Some tok →
  m !! "expires_in" = Some secs →
  secs = PyNone ∨ (∃ s, secs = PyStr s) ∨ (∃ l, secs = PyList l) ∨
    (∃ fields, secs = PyDict fields) →
  exec_from e n request_new_token w =
    ([Exchange (refresh_request (self w)) (refresh_response e n w); Tick (clock e (S n))],
     (Raise TypeError,
      World (set_expires_in secs (set_access_token tok (self w))) (default_h w))) ∧
  expires_time (set_expires_in secs (set_access_token tok (self w))) =
    expires_time (self w).
Proof.
  unfold refresh_response. intros Hjson Htok Hsecs Hkind.
  assert (Hdelta : timedelta_seconds secs = Raise TypeError).
  { destruct Hkind as [-> | [[s ->] | [[l ->] | [fields ->]]]]; reflexivity. }
  split; [ | reflexivity].
  unfold_methods. step_prog. rewrite Hjson. step_prog.
  unfold py_contains, py_getitem. rewrite Htok, Hsecs.
  rewrite bool_decide_eq_true_2 by eauto. step_prog.
  rewrite Hdelta. by step_prog.
Qed.

(** X12: after a refresh granted at time [now] for [s] seconds,
    [has_expired()] at time [t] says whether [t] is later than [now] plus
    [s] seconds. *)
Theorem has_expired_after_refresh e n w m tok s e' n' :
  json (refresh_response e n w) = Some (PyDict m) →
  m !! "access_token" = Some tok →
  m !! "expires_in" = Some (PyInt s) →
  representable_expiry (clock e (S n)) s →
  (exec_from e' n' has_expired (after e n request_new_token w)).2.1 =
    Ok (bool_decide (clock e' n' > clock e (S n) + s * 1000000)%Z).
Proof.
  intros Hjson Htok Hsecs Hrep. unfold after.
  rewrite (refresh_granted_run _ _ _ _ _ _ Hjson Htok Hsecs Hrep).
  reflexivity.
Qed.

(** X13: a [query] made no later than the expiry of a token that a refresh
    has just granted does not refresh again: it sends one request, with the
    granted token as bearer. *)
Theorem query_after_refresh_does_not_refresh e n w m tok s e' ep p h d file :
  json (refresh_response e n w) = Some (PyDict m) →
  m !! "access_token" = Some tok →
  m !! "expires_in" = Some (PyInt s) →
  representable_expiry (clock e (S n)) s →
  truthy tok = true →
  ¬ (clock e' 0 > clock e (S n) + s * 1000000)%Z →
  ∃ req hs,
    requests (exec e' (query ep p h d file) (after e n request_new_token w)).1 = [req] ∧
    req ≠ refresh_request (self w) ∧
    headers req = Some hs ∧
    hs !! "Authorization" = Some (PyStr ("Bearer " ++ py_str tok)).
Proof.
  intros Hjson Htok Hsecs Hrep Htruthy Hnot. unfold after.
  rewrite (refresh_granted_run _ _ _ _ _ _ Hjson Htok Hsecs Hrep). cbn [snd].
  edestruct (query_live_run e'
               (World (set_expires_time (Some (clock e (S n) + s * 1000000)%Z)
                         (set_expires_in (PyInt s) (set_access_token tok (self w))))
                      (default_h w))
               ep p h d file) as (req & Hrun & Hreq & _ & _ & Hhd);
    [reflexivity | exact Hnot | exact Htruthy | ].
  exists req. eexists. rewrite Hrun. split; [reflexivity | ].
  split; [exact Hreq | ]. split; [exact Hhd | ].
  cbn. by rewrite lookup_insert_eq.
Qed.

(** ** The status code *)

Lemma status_blind_run {R : Type} (p : prog R) e1 e2 :
  status_blind p →
  same_json e1 e2 →
  ∀ n, requests (run e1 n p).1 = requests (run e2 n p).1 ∧
       (run e1 n p).2 = (run e2 n p).2.
Proof.
  intros Hblind [Hclock Hjson].
  induction Hblind as [r | k _ IH | req k Hk _ IH]; intros n; cbn [run fst snd].
  - done.
  - rewrite !requests_tick, Hclock. apply IH.
  - rewrite !requests_exchange.
    rewrite (Hk (server e1 n req) (server e2 n req)) by apply Hjson.
    destruct (IH (server e2 n req) (S n)) as [-> ->]. done.
Qed.

Ltac blind_step :=
  first
    [ apply blind_done
    | apply blind_now; intros ?
    | apply blind_send;
      [ intros [? ?] [? ?] Hj; cbn in Hj; subst; reflexivity | intros ? ]
    | case_match ].

Lemma query_status_blind ep p h d file w :
  status_blind (query ep p h d file w).
Proof.
  unfold_methods. step_prog.
  repeat (blind_step; step_prog).
Qed.

Lemma test_token_status_blind w : status_blind (test_token w).
Proof.
  unfold_methods. step_prog.
  repeat (blind_step; step_prog).
Qed.

(** X14: [query] never looks at the status code: against two servers that
    send the same JSON, it sends the same requests, ends the same way and
    leaves the same state. *)
Theorem query_ignores_status_code e1 e2 w ep p h d file :
  same_json e1 e2 →
  requests (exec e1 (query ep p h d file) w).1 =
    requests (exec e2 (query ep p h d file) w).1 ∧
  (exec e1 (query ep p h d file) w).2 = (exec e2 (query ep p h d file) w).2.
Proof.
  intros Hsame. apply status_blind_run; [apply query_status_blind | done].
Qed.

(** X15: nor does [test_token]: whether it refreshes depends on the JSON of
    the probe alone, whatever the status. *)
Theorem test_token_ignores_status_code e1 e2 w :
  same_json e1 e2 →
  requests (exec e1 test_token w).1 = requests (exec e2 test_token w).1 ∧
  (exec e1 test_token w).2 = (exec e2 test_token w).2.
Proof.
  intros Hsame. apply status_blind_run; [apply test_token_status_blind | done].
Qed.

End Methods.

(** ** Closed runs *)

Example init0 : __init__ tokens0 "workdrive.zoho" "eu" = Ok client0.
Proof. reflexivity. Qed.

Example init_needs_refresh_token :
  __init__ (delete "refresh_token" tokens0) default_domain default_dc =
  Raise (ValueError "Client ID, secret and refresh token are all required.").
Proof. reflexivity. Qed.

Example an_hour_is_representable : representable_expiry noon 3600.
Proof. by vm_compute. Qed.

Example refresh_granted :
  exec_from env_grant 0 request_new_token world0 =
  ([Exchange (refresh_request client0) (Response 200 (Some grant)); Tick noon],
   (Ok true,
    World (set_expires_time (Some (noon + 3600 * 1000000)%Z)
             (set_expires_in (PyInt 3600) (set_access_token (PyStr "tok") client0)))
          ∅)).
Proof. reflexivity. Qed.

Example probe_rejected_refreshes :
  (url <$> requests (exec env_rejected (test_token no_repr) world0).1 =
     ["https://workdrive.zoho.eu.eu/api/v1/users/me";
      "https://accounts.zoho.eu/oauth/v2/token"]) ∧
  access_token (self (exec env_rejected (test_token no_repr) world0).2.2) = PyStr "tok".
Proof. by split. Qed.

Example probe_without_id_changes_nothing :
  (url <$> requests (exec env_grant (test_token no_repr) world0).1 =
     ["https://workdrive.zoho.eu.eu/api/v1/users/me"]) ∧
  self (exec env_grant (test_token no_repr) world0).2.2 = client0.
Proof. by split. Qed.

Lemma request_new_token_atomic_on_failure_witness :
  json (refresh_response env_refusal 0 world0) = Some refusal ∧
  py_contains refusal "access_token" = Ok false ∧
  exec_from env_refusal 0 request_new_token world0 =
    ([Exchange (refresh_request (self world0)) (refresh_response env_refusal 0 world0)],
     (Ok false, world0)).
Proof.
  split; [reflexivity | ]. split; [reflexivity | ].
  apply (request_new_token_atomic_on_failure env_refusal 0 world0 refusal);
    reflexivity.
Defined.

(** C5, as stated, fails: the response JSON contains "access_token", yet
    [request_new_token] does not return True; it raises KeyError on the
    missing "expires_in", after it has overwritten the access token. *)
Lemma request_new_token_token_only_raises :
  json (refresh_response env_token_only 0 world0) = Some (PyDict token_only) ∧
  token_only !! "access_token" = Some (PyStr "tok") ∧
  (exec_from env_token_only 0 request_new_token world0).2.1 = Raise (KeyError "expires_in") ∧
  (exec_from env_token_only 0 request_new_token world0).2.1 ≠ Ok true ∧
  access_token (self (exec_from env_token_only 0 request_new_token world0).2.2) = PyStr "tok".
Proof. by repeat split. Qed.

(** C1, as stated, fails: the token is missing and the refresh response does
    carry a token, yet [query] neither raises ValueError nor returns a
    parsed body; it raises KeyError and sends no query at all. *)
Lemma query_token_only_raises_keyerror :
  token_expired_or_missing (clock env_token_only 0) (self world0) ∧
  (exec env_token_only (query no_repr "/api/v1/files" ∅ ∅ ∅ ∅) world0).2.1 =
    Raise (KeyError "expires_in") ∧
  (∀ msg, (exec env_token_only (query no_repr "/api/v1/files" ∅ ∅ ∅ ∅) world0).2.1 ≠
            Raise (ValueError msg)) ∧
  (∀ v, (exec env_token_only (query no_repr "/api/v1/files" ∅ ∅ ∅ ∅) world0).2.1 ≠ Ok v) ∧
  requests (exec env_token_only (query no_repr "/api/v1/files" ∅ ∅ ∅ ∅) world0).1 =
    [refresh_request client0].
Proof.
  split; [by left | ]. by repeat split.
Qed.

Lemma test_token_probe_url_doubles_dc_witness :
  __init__ tokens0 "workdrive.zoho" "eu" = Ok client0 ∧
  reachable no_repr client0 world0 ∧
  ∃ probe resp rest,
    (exec env_grant (test_token no_repr) world0).1 = Exchange probe resp :: rest ∧
    url probe = "https://" ++ "workdrive.zoho" ++ "." ++ "eu" ++ "." ++ "eu" ++ "/api/v1/users/me" ∧
    url probe ≠ domain (self world0) ++ "/api/v1/users/me".
Proof.
  split; [reflexivity | ]. split; [apply reach_new | ].
  apply (test_token_probe_url_doubles_dc no_repr tokens0 "workdrive.zoho" "eu"
           client0 world0 env_grant); [reflexivity | apply reach_new].
Defined.

Lemma token_only_not_empty : token_only ≠ ∅.
Proof.
  intros H. apply (f_equal (λ m : dict, m !! "access_token")) in H.
  discriminate H.
Defined.

(** The three kinds of request, each at a run that sends it: no body and no
    files, a body, files. *)
Lemma query_method_by_arguments_witness :
  (run0 no_repr = ((run0 no_repr).1, ((run0 no_repr).2.1, (run0 no_repr).2.2)) ∧
   (exec_from env_grant (expiry_checks (self world0)) request_new_token world0).2.1 =
     Ok true ∧
   ∃ req resp,
     last (run0 no_repr).1 = Some (Exchange req resp) ∧
     meth req = GET ∧ data req = None ∧ files req = None) ∧
  (∃ req resp,
     last (exec env_grant (query no_repr "/api/v1/files" ∅ ∅ token_only ∅) world0).1 =
       Some (Exchange req resp) ∧
     meth req = POST ∧ data req = Some token_only ∧ files req = None) ∧
  (∃ req resp,
     last (exec env_grant (query no_repr "/api/v1/upload" ∅ ∅ ∅ token_only) world0).1 =
       Some (Exchange req resp) ∧
     meth req = POST ∧ data req = Some ∅ ∧ files req = Some token_only).
Proof.
  split; [split; [reflexivity | split; [reflexivity | ]] | split].
  - destruct (query_method_by_arguments no_repr env_grant world0 "/api/v1/files" ∅ ∅ ∅ ∅
                (run0 no_repr).1 (run0 no_repr).2.1 (run0 no_repr).2.2)
      as [_ Hsent]; [reflexivity | ].
    destruct Hsent as (req & resp & Hlast & _ & Hget & _ & _); [right; reflexivity | ].
    exists req, resp. split; [exact Hlast | ]. by apply Hget.
  - destruct (query_method_by_arguments no_repr env_grant world0 "/api/v1/files"
                ∅ ∅ token_only ∅
                (exec env_grant (query no_repr "/api/v1/files" ∅ ∅ token_only ∅) world0).1
                (exec env_grant (query no_repr "/api/v1/files" ∅ ∅ token_only ∅) world0).2.1
                (exec env_grant (query no_repr "/api/v1/files" ∅ ∅ token_only ∅) world0).2.2)
      as [_ Hsent]; [reflexivity | ].
    destruct Hsent as (req & resp & Hlast & _ & _ & Hpost & _); [right; reflexivity | ].
    exists req, resp. split; [exact Hlast | ].
    apply Hpost; [exact token_only_not_empty | reflexivity].
  - destruct (query_method_by_arguments no_repr env_grant world0 "/api/v1/upload"
                ∅ ∅ ∅ token_only
                (exec env_grant (query no_repr "/api/v1/upload" ∅ ∅ ∅ token_only) world0).1
                (exec env_grant (query no_repr "/api/v1/upload" ∅ ∅ ∅ token_only) world0).2.1
                (exec env_grant (query no_repr "/api/v1/upload" ∅ ∅ ∅ token_only) world0).2.2)
      as [_ Hsent]; [reflexivity | ].
    destruct Hsent as (req & resp & Hlast & _ & _ & _ & Hmulti); [right; reflexivity | ].
    exists req, resp. split; [exact Hlast | ].
    apply Hmulti. exact token_only_not_empty.
Defined.

Lemma query_request_target_and_bearer_witness :
  __init__ tokens0 "workdrive.zoho" "eu" = Ok client0 ∧
  reachable no_repr client0 world0 ∧
  run0 no_repr = ((run0 no_repr).1, ((run0 no_repr).2.1, (run0 no_repr).2.2)) ∧
  ∀ req, req ∈ requests (run0 no_repr).1 → req ≠ refresh_request (self world0) →
    url req = "https://" ++ "workdrive.zoho" ++ "." ++ "eu" ++ "/api/v1/files" ∧
    ∃ hd, headers req = Some hd ∧
          hd !! "Authorization" =
            Some (PyStr ("Bearer " ++ py_str no_repr (access_token (self (run0 no_repr).2.2)))).
Proof.
  split; [reflexivity | ]. split; [apply reach_new | ]. split; [reflexivity | ].
  apply (query_request_target_and_bearer no_repr tokens0 "workdrive.zoho" "eu" client0
           world0 env_grant "/api/v1/files" ∅ ∅ ∅ ∅ (run0 no_repr).1 (run0 no_repr).2.1 (run0 no_repr).2.2);
    [reflexivity | apply reach_new | reflexivity].
Defined.



Lemma query_outcome_witness :
  run0 no_repr = ((run0 no_repr).1, ((run0 no_repr).2.1, (run0 no_repr).2.2)) ∧
  (¬ token_expired_or_missing (clock env_grant 0) (self world0) →
     ∃ req resp,
       last (run0 no_repr).1 = Some (Exchange req resp) ∧ req ≠ refresh_request (self world0) ∧
       (run0 no_repr).2.1 = match json resp with
             | Some j => Ok j
             | None => Raise JSONDecodeError
             end) ∧
  (token_expired_or_missing (clock env_grant 0) (self world0) →
     ∀ tr1 r1 w1,
       exec_from env_grant (expiry_checks (self world0)) request_new_token world0 = (tr1, (r1, w1)) →
       (r1 = Ok false →
          (run0 no_repr).2.1 = Raise (ValueError "Could not obtain Client access token from Zoho.")) ∧
       (∀ x, r1 = Raise x → (run0 no_repr).2.1 = Raise x) ∧
       (r1 = Ok true →
          ∃ req resp,
            last (run0 no_repr).1 = Some (Exchange req resp) ∧ req ≠ refresh_request (self world0) ∧
            (run0 no_repr).2.1 = match json resp with
                  | Some j => Ok j
                  | None => Raise JSONDecodeError
                  end)).
Proof.
  split; [reflexivity | ].
  apply (query_outcome no_repr env_grant world0 "/api/v1/files" ∅ ∅ ∅ ∅
           (run0 no_repr).1 (run0 no_repr).2.1 (run0 no_repr).2.2).
  reflexivity.
Defined.

(** The run behind the closed statements above: the token is missing, the
    refresh is granted, and the GET returns the body it got. *)
Example run0_returns_body : (run0 no_repr).2.1 = Ok grant.
Proof. reflexivity. Qed.

Example run0_sends_refresh_then_get :
  meth <$> requests (run0 no_repr).1 = [POST; GET].
Proof. reflexivity. Qed.

Example run0_stores_expiry :
  expires_time (self (run0 no_repr).2.2) = Some (noon + 3600 * 1000000)%Z.
Proof. reflexivity. Qed.

(** A body without files is posted, files make the request multipart. *)
Example post_when_body :
  (λ r, (meth r, data r, files r)) <$>
    requests (exec env_grant (query no_repr "/api/v1/files" ∅ ∅ token_only ∅) world0).1 =
  [(POST, None, None); (POST, Some token_only, None)].
Proof. reflexivity. Qed.

Example multipart_when_files :
  (λ r, (meth r, data r, files r)) <$>
    requests (exec env_grant (query no_repr "/api/v1/upload" ∅ ∅ ∅ token_only) world0).1 =
  [(POST, None, None); (POST, Some ∅, Some token_only)].
Proof. reflexivity. Qed.

(** ** Closed runs of the further properties *)

Lemma fresh_client_first_query_refreshes_witness :
  __init__ tokens_with_access "workdrive.zoho" "eu" = Ok client_old ∧
  ∃ rest,
    requests (exec env_grant (query no_repr "/api/v1/files" ∅ ∅ ∅ ∅)
                (World client_old ∅)).1 =
      refresh_request client_old :: rest.
Proof.
  split; [reflexivity | ].
  apply (fresh_client_first_query_refreshes no_repr tokens_with_access
           "workdrive.zoho" "eu" client_old env_grant ∅ "/api/v1/files" ∅ ∅ ∅ ∅).
  reflexivity.
Defined.

Lemma fresh_client_probe_bearer_witness :
  __init__ tokens_with_access "workdrive.zoho" "eu" = Ok client_old ∧
  ∃ probe resp rest hs,
    (exec env_grant (test_token no_repr) (World client_old ∅)).1 =
      Exchange probe resp :: rest ∧
    headers probe = Some hs ∧
    hs !! "Authorization" =
      Some (PyStr match tokens_with_access !! "access_token" with
                  | Some tok => "Bearer " ++ py_str no_repr tok
                  | None => "Bearer None"
                  end).
Proof.
  split; [reflexivity | ].
  apply (fresh_client_probe_bearer no_repr tokens_with_access
           "workdrive.zoho" "eu" client_old env_grant ∅).
  reflexivity.
Defined.

Lemma test_token_without_id_raises_witness :
  json (server env_grant 0 (probe_request no_repr world0)) = Some (PyDict grant_fields) ∧
  grant_fields !! "id" = None ∧
  exec env_grant (test_token no_repr) world0 =
    ([Exchange (probe_request no_repr world0)
        (server env_grant 0 (probe_request no_repr world0))],
     (Raise (KeyError "id"), with_bearer no_repr world0)).
Proof.
  split; [reflexivity | ]. split; [reflexivity | ].
  apply (test_token_without_id_raises no_repr env_grant world0 grant_fields);
    reflexivity.
Defined.

Lemma rejected_is_sentinel :
  sentinel_id (server env_rejected_refused 0 (probe_request no_repr world0)).
Proof. exists rejected_fields. by split. Defined.

Lemma test_token_ignores_refused_refresh_witness :
  sentinel_id (server env_rejected_refused 0 (probe_request no_repr world0)) ∧
  json (server env_rejected_refused 1 (refresh_request (self world0))) = Some refusal ∧
  py_contains refusal "access_token" = Ok false ∧
  exec env_rejected_refused (test_token no_repr) world0 =
    ([Exchange (probe_request no_repr world0)
        (server env_rejected_refused 0 (probe_request no_repr world0));
      Exchange (refresh_request (self world0))
        (server env_rejected_refused 1 (refresh_request (self world0)))],
     (Ok tt, with_bearer no_repr world0)).
Proof.
  split; [exact rejected_is_sentinel | ]. split; [reflexivity | ].
  split; [reflexivity | ].
  apply (test_token_ignores_refused_refresh no_repr env_rejected_refused world0 refusal);
    [exact rejected_is_sentinel | reflexivity | reflexivity].
Defined.

Lemma query_refused_refresh_keeps_state_witness :
  token_expired_or_missing (clock env_refusal 0) (self world0) ∧
  json (refresh_response env_refusal (expiry_checks (self world0)) world0) = Some refusal ∧
  py_contains refusal "access_token" = Ok false ∧
  (exec env_refusal (query no_repr "/api/v1/files" ∅ ∅ ∅ ∅) world0).2 =
    (Raise (ValueError "Could not obtain Client access token from Zoho."), world0) ∧
  requests (exec env_refusal (query no_repr "/api/v1/files" ∅ ∅ ∅ ∅) world0).1 =
    [refresh_request (self world0)].
Proof.
  split; [by left | ]. split; [reflexivity | ]. split; [reflexivity | ].
  apply (query_refused_refresh_keeps_state no_repr env_refusal world0
           "/api/v1/files" ∅ ∅ ∅ ∅ refusal);
    [by left | reflexivity | reflexivity].
Defined.

Lemma noon_is_live : ¬ (clock env_grant 0 > noon + 3600 * 1000000)%Z.
Proof. intros H. discriminate H. Defined.

Lemma query_with_live_token_witness :
  expires_time (self world_live) = Some (noon + 3600 * 1000000)%Z ∧
  ¬ (clock env_grant 0 > noon + 3600 * 1000000)%Z ∧
  truthy (access_token (self world_live)) = true ∧
  ∃ req,
    exec env_grant (query no_repr "/api/v1/files" ∅ ∅ ∅ ∅) world_live =
      ([Tick (clock env_grant 0); Exchange req (server env_grant 1 req)],
       (response_json (server env_grant 1 req), with_bearer no_repr world_live)) ∧
    req ≠ refresh_request (self world_live) ∧
    url req = domain (self world_live) ++ "/api/v1/files" ∧
    params req = Some ∅ ∧
    headers req = Some (default_h (with_bearer no_repr world_live)).
Proof.
  split; [reflexivity | ]. split; [exact noon_is_live | ]. split; [reflexivity | ].
  apply (query_with_live_token no_repr env_grant world_live "/api/v1/files" ∅ ∅ ∅ ∅
           (noon + 3600 * 1000000)%Z);
    [reflexivity | exact noon_is_live | reflexivity].
Defined.

Lemma shared_default_headers_are_sent_witness :
  default_h world_traced !! "X-Trace" = Some (PyStr "1") ∧
  "X-Trace" ≠ "Authorization" ∧
  exec env_grant (query no_repr "/api/v1/files" ∅ ∅ ∅ ∅) world_traced =
    ((exec env_grant (query no_repr "/api/v1/files" ∅ ∅ ∅ ∅) world_traced).1,
     ((exec env_grant (query no_repr "/api/v1/files" ∅ ∅ ∅ ∅) world_traced).2.1,
      (exec env_grant (query no_repr "/api/v1/files" ∅ ∅ ∅ ∅) world_traced).2.2)) ∧
  ∀ req,
    req ∈ requests (exec env_grant (query no_repr "/api/v1/files" ∅ ∅ ∅ ∅) world_traced).1 →
    req ≠ refresh_request (self world_traced) →
    ∃ hs, headers req = Some hs ∧ hs !! "X-Trace" = Some (PyStr "1") ∧
          default_h (exec env_grant (query no_repr "/api/v1/files" ∅ ∅ ∅ ∅) world_traced).2.2
            !! "X-Trace" = Some (PyStr "1").
Proof.
  split; [reflexivity | ]. split; [discriminate | ]. split; [reflexivity | ].
  apply (shared_default_headers_are_sent no_repr env_grant world_traced
           "/api/v1/files" ∅ ∅ ∅ ∅ "X-Trace" (PyStr "1")
           (exec env_grant (query no_repr "/api/v1/files" ∅ ∅ ∅ ∅) world_traced).1
           (exec env_grant (query no_repr "/api/v1/files" ∅ ∅ ∅ ∅) world_traced).2.1
           (exec env_grant (query no_repr "/api/v1/files" ∅ ∅ ∅ ∅) world_traced).2.2);
    [reflexivity | discriminate | reflexivity].
Defined.

Lemma credentials_are_never_rotated_witness :
  reachable no_repr client0
    (after env_grant 0 (query no_repr "/api/v1/files" ∅ ∅ ∅ ∅) world0) ∧
  refresh_request
    (self (after env_grant 0 (query no_repr "/api/v1/files" ∅ ∅ ∅ ∅) world0)) =
    refresh_request client0 ∧
  domain (self (after env_grant 0 (query no_repr "/api/v1/files" ∅ ∅ ∅ ∅) world0)) =
    domain client0 ∧
  dc (self (after env_grant 0 (query no_repr "/api/v1/files" ∅ ∅ ∅ ∅) world0)) =
    dc client0.
Proof.
  split; [apply reach_query, reach_new | ].
  apply (credentials_are_never_rotated no_repr client0).
  apply reach_query, reach_new.
Defined.

Lemma methods_only_write_authorization_witness :
  reachable no_repr client0
    (after env_grant 0 (query no_repr "/api/v1/files" ∅ some_headers ∅ ∅) world0) ∧
  "X-Trace" ≠ "Authorization" ∧
  default_h (after env_grant 0 (query no_repr "/api/v1/files" ∅ some_headers ∅ ∅) world0)
    !! "X-Trace" = None.
Proof.
  split; [apply reach_query, reach_new | ]. split; [discriminate | ].
  apply (methods_only_write_authorization no_repr client0);
    [apply reach_query, reach_new | discriminate].
Defined.

Lemma request_new_token_unusable_expiry_witness :
  json (refresh_response env_quoted_expiry 0 world0) = Some (PyDict quoted_expiry) ∧
  quoted_expiry !! "access_token" = Some (PyStr "tok") ∧
  quoted_expiry !! "expires_in" = Some (PyStr "3600") ∧
  exec_from env_quoted_expiry 0 request_new_token world0 =
    ([Exchange (refresh_request (self world0)) (refresh_response env_quoted_expiry 0 world0);
      Tick (clock env_quoted_expiry 1)],
     (Raise TypeError,
      World (set_expires_in (PyStr "3600") (set_access_token (PyStr "tok") (self world0)))
            (default_h world0))) ∧
  expires_time (set_expires_in (PyStr "3600") (set_access_token (PyStr "tok") (self world0))) =
    expires_time (self world0).
Proof.
  split; [reflexivity | ]. split; [reflexivity | ]. split; [reflexivity | ].
  apply (request_new_token_unusable_expiry env_quoted_expiry 0 world0 quoted_expiry
           (PyStr "tok") (PyStr "3600"));
    [reflexivity | reflexivity | reflexivity | right; left; by exists "3600"].
Defined.

Lemma an_hour_from_noon : representable_expiry (clock env_grant 1) 3600.
Proof. by vm_compute. Defined.

Lemma has_expired_after_refresh_witness :
  json (refresh_response env_grant 0 world0) = Some (PyDict grant_fields) ∧
  grant_fields !! "access_token" = Some (PyStr "tok") ∧
  grant_fields !! "expires_in" = Some (PyInt 3600) ∧
  representable_expiry (clock env_grant 1) 3600 ∧
  (exec_from env_grant 0 has_expired (after env_grant 0 request_new_token world0)).2.1 =
    Ok (bool_decide (clock env_grant 0 > clock env_grant 1 + 3600 * 1000000)%Z).
Proof.
  split; [reflexivity | ]. split; [reflexivity | ]. split; [reflexivity | ].
  split; [exact an_hour_from_noon | ].
  apply (has_expired_after_refresh env_grant 0 world0 grant_fields (PyStr "tok") 3600
           env_grant 0);
    [reflexivity | reflexivity | reflexivity | exact an_hour_from_noon].
Defined.

Lemma query_after_refresh_does_not_refresh_witness :
  json (refresh_response env_grant 0 world0) = Some (PyDict grant_fields) ∧
  grant_fields !! "access_token" = Some (PyStr "tok") ∧
  grant_fields !! "expires_in" = Some (PyInt 3600) ∧
  representable_expiry (clock env_grant 1) 3600 ∧
  truthy (PyStr "tok") = true ∧
  ¬ (clock env_grant 0 > clock env_grant 1 + 3600 * 1000000)%Z ∧
  ∃ req hs,
    requests (exec env_grant (query no_repr "/api/v1/files" ∅ ∅ ∅ ∅)
                (after env_grant 0 request_new_token world0)).1 = [req] ∧
    req ≠ refresh_request (self world0) ∧
    headers req = Some hs ∧
    hs !! "Authorization" = Some (PyStr ("Bearer " ++ py_str no_repr (PyStr "tok"))).
Proof.
  split; [reflexivity | ]. split; [reflexivity | ]. split; [reflexivity | ].
  split; [exact an_hour_from_noon | ]. split; [reflexivity | ].
  split; [exact noon_is_live | ].
  apply (query_after_refresh_does_not_refresh no_repr env_grant 0 world0 grant_fields
           (PyStr "tok") 3600 env_grant "/api/v1/files" ∅ ∅ ∅ ∅);
    [reflexivity | reflexivity | reflexivity | exact an_hour_from_noon
    | reflexivity | exact noon_is_live].
Defined.

Lemma grant_whatever_the_status : same_json env_grant env_grant_500.
Proof. by split. Defined.

Lemma query_ignores_status_code_witness :
  same_json env_grant env_grant_500 ∧
  requests (exec env_grant (query no_repr "/api/v1/files" ∅ ∅ ∅ ∅) world0).1 =
    requests (exec env_grant_500 (query no_repr "/api/v1/files" ∅ ∅ ∅ ∅) world0).1 ∧
  (exec env_grant (query no_repr "/api/v1/files" ∅ ∅ ∅ ∅) world0).2 =
    (exec env_grant_500 (query no_repr "/api/v1/files" ∅ ∅ ∅ ∅) world0).2.
Proof.
  split; [exact grant_whatever_the_status | ].
  apply (query_ignores_status_code no_repr env_grant env_grant_500 world0
           "/api/v1/files" ∅ ∅ ∅ ∅).
  exact grant_whatever_the_status.
Defined.

Lemma test_token_ignores_status_code_witness :
  same_json env_grant env_grant_500 ∧
  requests (exec env_grant (test_token no_repr) world0).1 =
    requests (exec env_grant_500 (test_token no_repr) world0).1 ∧
  (exec env_grant (test_token no_repr) world0).2 =
    (exec env_grant_500 (test_token no_repr) world0).2.
Proof.
  split; [exact grant_whatever_the_status | ].
  apply (test_token_ignores_status_code no_repr env_grant env_grant_500 world0).
  exact grant_whatever_the_status.
Defined.

(** A 500 with a JSON body is returned like any other response. *)
Example a_500_is_returned :
  (exec env_grant_500 (query no_repr "/api/v1/files" ∅ ∅ ∅ ∅) world_live).2.1 = Ok grant.
Proof. reflexivity. Qed.
